(** * vhm_common_utils: data models, settings and the embedding entry point

    A shallow embedding of the package [vhm_common_utils]:

    - [data_models.py]: the pydantic records [Anchor] and
      [IndexedAnchorResponse], with the construction-time validation that
      [BaseModel.__init__] runs;
    - [config.py]: the [Settings] record of pydantic-settings, resolved from
      the process environment, the [.env] file and the declared defaults;
    - [embedding.py]: the function [get_embedding].

    A Python [str] is a [string] holding the UTF-8 encoding of its code
    points; a Python [float] is a binary64 value of [SpecFloat]; a [dict]
    given as keyword arguments is a [gmap string _]; a [dict] held as a value
    is the list of its items in iteration order.

    The values are plain data: [None], [bool], [int], [float], [str],
    [datetime], and lists and dicts of them.  Objects of other classes
    ([bytes], [bytearray], enum members, model instances, ...) are not
    modelled, and no statement below is about them. *)

From Stdlib Require Import ZArith String Ascii List Bool Lia.
From Stdlib Require Import Floats.SpecFloat.
From stdpp Require Import base option list gmap strings fin_maps.

Open Scope string_scope.
Open Scope Z_scope.

(** ** Python values *)

Module Py.

(** [float]: IEEE 754 binary64, in the canonical form of [SpecFloat]. *)
Definition float : Type := spec_float.
Definition prec : Z := 53.
Definition emax : Z := 1024.

(** [float(n)] for an [int]: round to nearest, ties to even; Python raises
    [OverflowError] when the rounded value is not finite. *)
Definition float_of_int (n : Z) : option float :=
  match binary_normalize prec emax n 0 false with
  | S754_infinity _ | S754_nan => None
  | f => Some f
  end.

Definition float_zero : float := S754_zero false.
Definition float_one : float := S754_finite false 4503599627370496 (-52).

(** [tzinfo]: what [tzinfo.utcoffset(dt)] answers for the datetime that
    carries it, in microseconds ([None] when it answers [None]). *)
Record tzinfo : Type := { utcoffset : option Z }.

(** [datetime.datetime]. *)
Record datetime : Type := {
  year : Z; month : Z; day : Z;
  hour : Z; minute : Z; second : Z; microsecond : Z;
  tz : option tzinfo
}.

(** [datetime.timezone.utc]. *)
Definition utc : tzinfo := {| utcoffset := Some 0 |}.

(** A datetime is aware when it has a [tzinfo] whose [utcoffset] is not
    [None], and naive otherwise (the definition of the [datetime] module). *)
Definition aware (d : datetime) : bool :=
  match tz d with
  | Some t => bool_decide (is_Some (utcoffset t))
  | None => false
  end.

(** Plain data: the values that are modelled.  It holds no [bytes] or
    [bytearray] (which lax mode decodes for a [str] field), no member of an
    enum and no instance of a model or dataclass (which [model_dump]
    rewrites to a dict). *)
#[warnings="-register-all"]
Inductive pyval : Type :=
| VNone
| VBool (b : bool)
| VInt (n : Z)
| VFloat (f : float)
| VStr (s : string)
| VDatetime (d : datetime)
| VList (l : list pyval)
| VDict (items : list (pyval * pyval)).

(** [isinstance(v, (int, float))], as the tests ask of every element of an
    embedding ([bool] is a subclass of [int]). *)
Definition is_number (v : pyval) : bool :=
  match v with
  | VBool _ | VInt _ | VFloat _ => true
  | _ => false
  end.

(** One entry of a pydantic [ValidationError]: the field it is about, and
    whether the field was absent or its value was rejected. *)
Inductive error_type : Type := missing | rejected.
Definition ErrorDetails : Type := (string * error_type)%type.

(** Exceptions. *)
Inductive exn : Type :=
| ValidationError (errors : list ErrorDetails)
| Exception (cls : string) (msg : string).

(** How a call ends: it returns a value or raises. *)
Inductive outcome (A : Type) : Type :=
| Return (a : A)
| Raise (e : exn).
Global Arguments Return {A} a.
Global Arguments Raise {A} e.

Definition returns {A} (o : outcome A) : bool :=
  match o with Return _ => true | Raise _ => false end.

(** Number of code points of a UTF-8 text: the bytes that are not
    continuation bytes (128 to 191). *)
Fixpoint code_points (s : string) : Z :=
  match s with
  | EmptyString => 0
  | String c rest =>
      let n := nat_of_ascii c in
      (if ((128 <=? n) && (n <=? 191))%nat then 0 else 1) + code_points rest
  end.

(** [type(v).__name__], as the message of a [TypeError] spells it. *)
Definition type_name (v : pyval) : string :=
  match v with
  | VNone => "NoneType"
  | VBool _ => "bool"
  | VInt _ => "int"
  | VFloat _ => "float"
  | VStr _ => "str"
  | VDatetime _ => "datetime.datetime"
  | VList _ => "list"
  | VDict _ => "dict"
  end.

(** The builtin [len]: defined on texts, lists and dicts; a [TypeError] on
    every other value. *)
Definition len (v : pyval) : outcome Z :=
  match v with
  | VStr s => Return (code_points s)
  | VList l => Return (Z.of_nat (length l))
  | VDict items => Return (Z.of_nat (length items))
  | _ => Raise (Exception "TypeError" ("object of type '" ++ type_name v ++ "' has no len()"))
  end.

End Py.
Import Py.

(** ** pydantic: validation of one value against a field's annotation

    The package never switches strict mode on, so every field is validated
    in lax mode.  The conversions of lax mode that parse text or a timestamp
    are pydantic-core's own and are taken as parameters. *)

Module Pydantic.

(** The parsers of pydantic-core that lax mode calls. *)
Record Parsers : Type := {
  str_as_float : string -> option float;
  str_as_datetime : string -> option datetime;
  int_as_datetime : Z -> option datetime;
  float_as_datetime : float -> option datetime
}.

(** ASCII lower case of one character. *)
Definition ascii_lower (c : ascii) : ascii :=
  let n := nat_of_ascii c in
  if ((65 <=? n) && (n <=? 90))%nat then ascii_of_nat (n + 32) else c.

Fixpoint to_ascii_lowercase (s : string) : string :=
  match s with
  | EmptyString => EmptyString
  | String c rest => String (ascii_lower c) (to_ascii_lowercase rest)
  end.

Definition eq_ignore_ascii_case (a b : string) : bool :=
  String.eqb (to_ascii_lowercase a) (to_ascii_lowercase b).

(** [str]: a [str] is kept as it is; of the plain data nothing else is
    accepted (numbers are not turned into text).  What lax mode accepts
    besides, [bytes] and [bytearray] that decode as UTF-8, is outside
    [pyval]. *)
Definition validate_str (v : pyval) : option string :=
  match v with
  | VStr s => Some s
  | _ => None
  end.

(** [str | None]. *)
Definition validate_optional_str (v : pyval) : option (option string) :=
  match v with
  | VNone => Some None
  | _ => Some <$> validate_str v
  end.

(** [str_as_bool] of pydantic-core. *)
Definition str_as_bool (s : string) : option bool :=
  if String.eqb s "0" || existsb (eq_ignore_ascii_case s) ["f"; "n"; "no"; "off"; "false"]
  then Some false
  else if String.eqb s "1" || existsb (eq_ignore_ascii_case s) ["t"; "y"; "on"; "yes"; "true"]
  then Some true
  else None.

Definition int_as_bool (n : Z) : option bool :=
  match n with
  | 0 => Some false
  | 1 => Some true
  | _ => None
  end.

(** [bool]: a [bool]; in lax mode also the texts of [str_as_bool], the
    integers 0 and 1 and the floats equal to them. *)
Definition validate_bool (v : pyval) : option bool :=
  match v with
  | VBool b => Some b
  | VStr s => str_as_bool s
  | VInt n => int_as_bool n
  | VFloat f =>
      match f with
      | S754_zero _ => Some false
      | _ => if SFeqb f float_one then Some true else None
      end
  | _ => None
  end.

(** [float]: a [float]; in lax mode also a text that parses, an [int]
    that converts, and a [bool]. *)
Definition validate_float (P : Parsers) (v : pyval) : option float :=
  match v with
  | VFloat f => Some f
  | VStr s => str_as_float P s
  | VInt n => float_of_int n
  | VBool b => Some (if b then float_one else float_zero)
  | _ => None
  end.

(** [datetime.datetime]: a datetime is kept as it is; in lax mode also a
    text or a number that parses as one ([bool] is refused). *)
Definition validate_datetime (P : Parsers) (v : pyval) : option datetime :=
  match v with
  | VDatetime d => Some d
  | VStr s => str_as_datetime P s
  | VInt n => int_as_datetime P n
  | VFloat f => float_as_datetime P f
  | _ => None
  end.

(** [Dict[str, Any]]: a dict whose keys all validate as [str]; the values
    are kept as they are. *)
Fixpoint validate_items (items : list (pyval * pyval)) : option (list (string * pyval)) :=
  match items with
  | [] => Some []
  | (k, x) :: rest =>
      match validate_str k, validate_items rest with
      | Some s, Some r => Some ((s, x) :: r)
      | _, _ => None
      end
  end.

Definition validate_dict_str_any (v : pyval) : option (list (string * pyval)) :=
  match v with
  | VDict items => validate_items items
  | _ => None
  end.

(** The annotations that the fields of the two models carry. *)
Inductive annotation : Type :=
| T_str | T_optional_str | T_bool | T_float | T_datetime | T_dict_str_any.

(** One field of a model: the keyword argument when it is given (validated),
    the default when it is not, and an error when there is no default.  A
    rejected value is reported once, under the name of its field; pydantic
    reports it once for each place inside the value that fails (each bad key
    of a dict). *)
Definition field {A} (data : gmap string pyval) (name : string)
    (validate : pyval -> option A) (default : option A) : list ErrorDetails + A :=
  match data !! name with
  | Some x =>
      match validate x with
      | Some a => inr a
      | None => inl [(name, rejected)]
      end
  | None =>
      match default with
      | Some a => inr a
      | None => inl [(name, missing)]
      end
  end.

Definition errors_of {A} (r : list ErrorDetails + A) : list ErrorDetails :=
  match r with
  | inl e => e
  | inr _ => []
  end.

End Pydantic.
Import Pydantic.

(** ** data_models.py *)

Module data_models.

Module Anchor.

Record t : Type := {
  anchor_id : string;
  text : string;
  stored_at : datetime;
  salience : float;
  meta : list (string * pyval)
}.

(** The constructor [Anchor], called with the keyword arguments [data]:
    every field is validated in the order of the class body, the errors
    of all fields are collected, and the record exists only when there
    is none.  [salience] defaults to 1.0 and [meta] to a new empty dict;
    keyword arguments that name no field are ignored. *)
Definition new (P : Parsers) (data : gmap string pyval) : outcome t :=
  let f_anchor_id := field data "anchor_id" validate_str None in
  let f_text := field data "text" validate_str None in
  let f_stored_at := field data "stored_at" (validate_datetime P) None in
  let f_salience := field data "salience" (validate_float P) (Some float_one) in
  let f_meta := field data "meta" validate_dict_str_any (Some []) in
  match f_anchor_id, f_text, f_stored_at, f_salience, f_meta with
  | inr i, inr x, inr d, inr s, inr m =>
      Return {| anchor_id := i; text := x; stored_at := d; salience := s; meta := m |}
  | _, _, _, _, _ =>
      Raise (ValidationError
               (errors_of f_anchor_id ++ errors_of f_text ++ errors_of f_stored_at
                ++ errors_of f_salience ++ errors_of f_meta))
  end.

(** The annotation of each field, as the class body gives it. *)
Definition annotations : list (string * annotation) :=
  [("anchor_id", T_str); ("text", T_str); ("stored_at", T_datetime);
   ("salience", T_float); ("meta", T_dict_str_any)].

(** [Anchor.model_fields], in the order of the class body. *)
Definition model_fields : list string :=
  ["anchor_id"; "text"; "stored_at"; "salience"; "meta"].

(** [a.model_dump()]: the dict of the field values.  The values of [meta]
    are plain data, which [model_dump] returns as they are. *)
Definition model_dump (a : t) : gmap string pyval :=
  {[ "anchor_id" := VStr (anchor_id a);
     "text" := VStr (text a);
     "stored_at" := VDatetime (stored_at a);
     "salience" := VFloat (salience a);
     "meta" := VDict (map (fun kv => (VStr kv.1, kv.2)) (meta a)) ]}.

End Anchor.

Module IndexedAnchorResponse.

Record t : Type := {
  anchor_id : string;
  ok : bool;
  reason : option string;
  detail : option string
}.

(** The constructor [IndexedAnchorResponse], in the same way; [reason]
    and [detail] default to [None]. *)
Definition new (data : gmap string pyval) : outcome t :=
  let f_anchor_id := field data "anchor_id" validate_str None in
  let f_ok := field data "ok" validate_bool None in
  let f_reason := field data "reason" validate_optional_str (Some None) in
  let f_detail := field data "detail" validate_optional_str (Some None) in
  match f_anchor_id, f_ok, f_reason, f_detail with
  | inr i, inr o, inr r, inr d =>
      Return {| anchor_id := i; ok := o; reason := r; detail := d |}
  | _, _, _, _ =>
      Raise (ValidationError
               (errors_of f_anchor_id ++ errors_of f_ok ++ errors_of f_reason
                ++ errors_of f_detail))
  end.

(** The annotation of each field, as the class body gives it. *)
Definition annotations : list (string * annotation) :=
  [("anchor_id", T_str); ("ok", T_bool); ("reason", T_optional_str);
   ("detail", T_optional_str)].

(** [IndexedAnchorResponse.model_fields]. *)
Definition model_fields : list string :=
  ["anchor_id"; "ok"; "reason"; "detail"].

(** [r.model_dump()], as test_response_serialization calls it. *)
Definition model_dump (r : t) : gmap string pyval :=
  {[ "anchor_id" := VStr (anchor_id r);
     "ok" := VBool (ok r);
     "reason" := from_option VStr VNone (reason r);
     "detail" := from_option VStr VNone (detail r) ]}.

End IndexedAnchorResponse.

End data_models.
Import data_models.

(** ** The process environment *)

Module os.

(** [os.environ], as the list of its items in iteration order. *)
Definition environ : Type := list (string * string).

(** [os.environ[k] = v] (what [monkeypatch.setenv] does): the value of an
    existing key is replaced where it stands, a new key goes last. *)
Fixpoint setenv (k v : string) (env : environ) : environ :=
  match env with
  | [] => [(k, v)]
  | (k', v') :: rest =>
      if String.eqb k' k then (k, v) :: rest else (k', v') :: setenv k v rest
  end.

End os.

(** ** config.py *)

Module config.

(** [str.lower] on UTF-8 text.  It is exact on every text whose lower-case
    form is ASCII: such a text is made of ASCII characters and of the
    Kelvin sign U+212A (bytes 226 132 170), which lowers to [k].  Any other
    non-ASCII character is left as it is here, and stays non-ASCII under
    [str.lower] too, so comparing a lowered name with an option name gives
    the same answer. *)
Fixpoint lower (s : string) : string :=
  match s with
  | EmptyString => EmptyString
  | String "226"%char (String "132"%char (String "170"%char rest)) => String "k"%char (lower rest)
  | String c rest => String (ascii_lower c) (lower rest)
  end.

(** [parse_env_vars] of pydantic-settings with [case_sensitive=False]: the
    dict comprehension [{k.lower(): v for k, v in env_vars.items()}], one
    item at a time; of two keys with the same lower-case form the later one
    stays. *)
Definition add_env_var {A} (m : gmap string A) (kv : string * A) : gmap string A :=
  <[lower kv.1 := kv.2]> m.

Definition parse_env_vars {A} (env_vars : list (string * A)) : gmap string A :=
  foldl add_env_var ∅ env_vars.

Record Settings : Type := {
  (* Kafka Settings *)
  kafka_bootstrap_servers : string;
  (* Qdrant Settings *)
  qdrant_url : string;
  qdrant_collection : string;
  (* Embedding Settings *)
  embedding_model : string;
  ollama_base_url : string;
  portkey_api_key : option string;
  portkey_base_url : string
}.

(** The value the sources give an option: the process environment first,
    then the [.env] file.  [dotenv] is the mapping that [dotenv_values] reads
    from the file at the time of the call, [[]] when there is no such file; a
    key written without a value reads as [None] and counts as absent.  What
    the file reads as can itself depend on the environment ([env_file]
    below). *)
Definition source_value (env : os.environ) (dotenv : list (string * option string))
    (field_name : string) : option string :=
  match parse_env_vars env !! lower field_name with
  | Some v => Some v
  | None => parse_env_vars dotenv !! lower field_name ≫= id
  end.

(** [Settings()]: each option is the value of its source, or the default of
    the class body.  The values of the sources are texts and every option
    is a [str], so validation accepts them as they are; keys that name no
    option are ignored ([extra="ignore"]). *)
Definition Settings_new (env : os.environ) (dotenv : list (string * option string)) : Settings :=
  let value := source_value env dotenv in
  {| kafka_bootstrap_servers := default "localhost:9092" (value "kafka_bootstrap_servers");
     qdrant_url := default "http://localhost:6333" (value "qdrant_url");
     qdrant_collection := default "anchors" (value "qdrant_collection");
     embedding_model := default "deterministic" (value "embedding_model");
     ollama_base_url := default "http://localhost:11434" (value "ollama_base_url");
     portkey_api_key := value "portkey_api_key";
     portkey_base_url := default "https://api.portkey.ai/v1" (value "portkey_base_url") |}.

(** The [.env] file as [dotenv_values] reads it under a process environment:
    a reference [${NAME}] in a value is expanded from [os.environ], so the
    mapping read is a function of the environment. *)
Definition env_file : Type := os.environ -> list (string * option string).

(** [Settings()] in a process with the environment [env] and the file [file]. *)
Definition Settings_load (file : env_file) (env : os.environ) : Settings :=
  Settings_new env (file env).

(** [getattr(settings, name)] as a value; [None] for a name that is not an
    option. *)
Definition getattr (s : Settings) (name : string) : option pyval :=
  if String.eqb name "kafka_bootstrap_servers" then Some (VStr (kafka_bootstrap_servers s))
  else if String.eqb name "qdrant_url" then Some (VStr (qdrant_url s))
  else if String.eqb name "qdrant_collection" then Some (VStr (qdrant_collection s))
  else if String.eqb name "embedding_model" then Some (VStr (embedding_model s))
  else if String.eqb name "ollama_base_url" then Some (VStr (ollama_base_url s))
  else if String.eqb name "portkey_api_key" then
    Some (match portkey_api_key s with Some k => VStr k | None => VNone end)
  else if String.eqb name "portkey_base_url" then Some (VStr (portkey_base_url s))
  else None.

End config.
Import config.

(** ** embedding.py *)

Module embedding.

(** What a call can read and change: the object [config.settings], made
    once when [config] is imported, and the requests sent over the network
    so far (their URLs). *)
Record world : Type := {
  settings : Settings;
  sent : list string
}.

(** The state of a process that has just imported the package. *)
Definition at_import (env : os.environ) (dotenv : list (string * option string)) : world :=
  {| settings := Settings_new env dotenv; sent := [] |}.

(** Python code: from a state, an outcome and the state it leaves. *)
Definition py (A : Type) : Type := world -> outcome A * world.

Definition ret {A} (a : A) : py A := fun w => (Return a, w).

Definition bind {A B} (m : py A) (k : A -> py B) : py B :=
  fun w =>
    match m w with
    | (Return a, w') => k a w'
    | (Raise e, w') => (Raise e, w')
    end.

(** [get_embedding]: the body is the docstring and [pass], so the call
    returns [None] whatever [text] and the settings are. *)
Definition get_embedding (text : string) : py pyval :=
  ret VNone.

(** A computation that touches no state. *)
Definition lift {A} (o : outcome A) : py A := fun w => (o, w).

(** [len(get_embedding(text))], as the tests and the lifecycle scenario
    measure an embedding. *)
Definition embedding_dimension (text : string) : py Z :=
  bind (get_embedding text) (fun embedding => lift (len embedding)).

End embedding.
Import embedding.

Notation "x <- m ;; k" := (bind m (fun x => k))
  (at level 100, m at next level, right associativity, only parsing).

(** ** Vocabulary of the properties *)

(** [isinstance(v, list)] with every element a number: a numeric vector. *)
Definition is_vector (v : pyval) : bool :=
  match v with
  | VList l => forallb is_number l
  | _ => false
  end.

(** A numeric vector with at least one element. *)
Definition is_embedding (v : pyval) : bool :=
  match v with
  | VList (x :: l) => forallb is_number (x :: l)
  | _ => false
  end.

(** The list [[0.1, 0.2, 0.3]] that tests/test_embedding.py compares the
    result with (the three binary64 values nearest to the decimals). *)
Definition placeholder : pyval :=
  VList [VFloat (S754_finite false 7205759403792794 (-56));
         VFloat (S754_finite false 7205759403792794 (-55));
         VFloat (S754_finite false 5404319552844595 (-54))].


(** A construction that ends in a [ValidationError] with at least one entry. *)
Definition fails_validation {A} (o : outcome A) : Prop :=
  ∃ errors, errors ≠ [] ∧ o = Raise (ValidationError errors).

(** A field is invalid in [data] when its value is rejected by the field's
    validator, or when it is absent and the field has no default. *)
Definition invalid {A} (data : gmap string pyval) (name : string)
    (validate : pyval -> option A) (default : option A) : Prop :=
  match data !! name with
  | Some x => validate x = None
  | None => default = None
  end.

Definition Anchor_invalid (P : Parsers) (data : gmap string pyval) : Prop :=
  invalid data "anchor_id" validate_str None
  ∨ invalid data "text" validate_str None
  ∨ invalid data "stored_at" (validate_datetime P) None
  ∨ invalid data "salience" (validate_float P) (Some float_one)
  ∨ invalid data "meta" validate_dict_str_any (Some []).


(** The option names of [Settings]. *)
Definition recognized : list string :=
  ["kafka_bootstrap_servers"; "qdrant_url"; "qdrant_collection"; "embedding_model";
   "ollama_base_url"; "portkey_api_key"; "portkey_base_url"].

(** No override: no variable of the environment is named after an option
    (in any letter case), and the [.env] file gives no option a value. *)
Definition no_overrides (env : os.environ) (dotenv : list (string * option string)) : Prop :=
  Forall (fun kv => lower kv.1 ∉ recognized) env
  ∧ Forall (fun kv => lower kv.1 ∈ recognized → kv.2 = None) dotenv.

(** The defaults of the class body. *)
Definition Settings_defaults : Settings :=
  {| kafka_bootstrap_servers := "localhost:9092";
     qdrant_url := "http://localhost:6333";
     qdrant_collection := "anchors";
     embedding_model := "deterministic";
     ollama_base_url := "http://localhost:11434";
     portkey_api_key := None;
     portkey_base_url := "https://api.portkey.ai/v1" |}.

(** Two calls of [get_embedding] on the same text, one after the other. *)
Definition twice (text : string) : py (pyval * pyval) :=
  x <- get_embedding text ;; y <- get_embedding text ;; ret (x, y).

(** The same variables up to the letter case of their names. *)
Definition same_up_to_case {A} (l1 l2 : list (string * A)) : Prop :=
  map (fun kv => (lower kv.1, kv.2)) l1 = map (fun kv => (lower kv.1, kv.2)) l2.

(** The required fields of [Anchor]: those without a default. *)
Definition Anchor_required : list string := ["anchor_id"; "text"; "stored_at"].



(** [os.environ.get(name, "")]. *)
Definition getenv (name : string) (env : os.environ) : string :=
  default "" (snd <$> find (fun kv => String.eqb kv.1 name) env).

(** A [.env] file with the one line [QDRANT_URL=http://${QHOST}:6333]. *)
Definition interpolating_file : env_file :=
  fun env => [("QDRANT_URL", Some ("http://" ++ getenv "QHOST" env ++ ":6333"))].

(** *** Concrete inputs *)

(** Parsers that accept nothing, to run the constructors on inputs whose
    validation calls no parser. *)
Definition no_parser : Parsers :=
  {| str_as_float := fun _ => None;
     str_as_datetime := fun _ => None;
     int_as_datetime := fun _ => None;
     float_as_datetime := fun _ => None |}.

(** [datetime(2024, 1, 1, tzinfo=timezone.utc)] and [datetime(2024, 1, 1)]. *)
Definition aware_2024 : datetime :=
  {| year := 2024; month := 1; day := 1; hour := 0; minute := 0; second := 0;
     microsecond := 0; tz := Some utc |}.
Definition naive_2024 : datetime :=
  {| year := 2024; month := 1; day := 1; hour := 0; minute := 0; second := 0;
     microsecond := 0; tz := None |}.

(** [Anchor(anchor_id="test-123", text="Hello, world!", stored_at=...)]. *)
Definition basic_anchor_data (d : datetime) : gmap string pyval :=
  {[ "anchor_id" := VStr "test-123"; "text" := VStr "Hello, world!";
     "stored_at" := VDatetime d ]}.

Definition basic_anchor (d : datetime) : Anchor.t :=
  {| Anchor.anchor_id := "test-123"; Anchor.text := "Hello, world!"; Anchor.stored_at := d;
     Anchor.salience := float_one; Anchor.meta := [] |}.

(** The same call with [salience=0.0], and the record it makes. *)
Definition zero_salience_data : gmap string pyval :=
  <["salience" := VFloat float_zero]> (basic_anchor_data naive_2024).

Definition zero_salience_anchor : Anchor.t :=
  {| Anchor.anchor_id := "test-123"; Anchor.text := "Hello, world!";
     Anchor.stored_at := naive_2024; Anchor.salience := float_zero; Anchor.meta := [] |}.

(** The record of [IndexedAnchorResponse(anchor_id="success-123", ok=1)]. *)
Definition int_ok_response : IndexedAnchorResponse.t :=
  {| IndexedAnchorResponse.anchor_id := "success-123";
     IndexedAnchorResponse.ok := true;
     IndexedAnchorResponse.reason := None;
     IndexedAnchorResponse.detail := None |}.

(** [IndexedAnchorResponse(anchor_id="success-123", ok=1)]. *)
Definition int_ok_data : gmap string pyval :=
  {[ "anchor_id" := VStr "success-123"; "ok" := VInt 1 ]}.

(** [Anchor(anchor_id=123, text="Hello, world!")]: a value of the wrong type
    and a required field left out. *)
Definition bad_anchor_data : gmap string pyval :=
  {[ "anchor_id" := VInt 123; "text" := VStr "Hello, world!" ]}.

(** [s * n]: the text [s] repeated [n] times. *)
Fixpoint str_mul (s : string) (n : nat) : string :=
  match n with
  | O => ""
  | S n' => s ++ str_mul s n'
  end.

(** The long text of test_anchor_with_very_long_text, and two of the texts of
    test_anchor_with_special_characters (a null byte; the UTF-8 bytes of
    U+1F600). *)
Definition long_text : string := str_mul "Lorem ipsum dolor sit amet, " 1000.
Definition null_byte_text : string := "Null" ++ String "000"%char "Byte".
Definition emoji_text : string :=
  "Unicode: " ++ String "240"%char (String "159"%char (String "152"%char (String "128"%char ""))).

(** The environment of test_settings_from_env. *)
Definition test_env : os.environ :=
  [("PATH", "/usr/bin");
   ("KAFKA_BOOTSTRAP_SERVERS", "kafka.example.com:9092");
   ("QDRANT_URL", "https://qdrant.cloud:6333");
   ("EMBEDDING_MODEL", "ollama");
   ("PORTKEY_API_KEY", "pk-secret-key-123")].

(** The names of the environment variables, in upper case. *)
Definition environment_variables : list string :=
  ["KAFKA_BOOTSTRAP_SERVERS"; "QDRANT_URL"; "QDRANT_COLLECTION"; "EMBEDDING_MODEL";
   "OLLAMA_BASE_URL"; "PORTKEY_API_KEY"; "PORTKEY_BASE_URL"].

(** A process started with [EMBEDDING_MODEL=portkey] and no [PORTKEY_API_KEY]. *)
Definition portkey_world : world :=
  at_import [("PATH", "/usr/bin"); ("EMBEDDING_MODEL", "portkey")] [].

(** A process started with none of the options set, and a [.env] file that
    sets none: a key that names no option, and an option written without a
    value. *)
Definition plain_env : os.environ := [("PATH", "/usr/bin"); ("HOME", "/root")].
Definition plain_dotenv : list (string * option string) :=
  [("DEBUG", Some "1"); ("QDRANT_URL", None)].
Definition plain_world : world := at_import plain_env plain_dotenv.

(** ** Lemmas on the environment *)

Section ParseEnvVars.
Context {A : Type}.
Implicit Types (l : list (string * A)) (m : gmap string A) (n : string).

Lemma lookup_add_env_var m k (v : A) n :
  add_env_var m (k, v) !! n = if decide (lower k = n) then Some v else m !! n.
Proof. unfold add_env_var. simpl. apply lookup_insert. Qed.

(** The fold looks at the accumulator only through the key it is asked for. *)
Lemma foldl_add_env_var_agree l m1 m2 n :
  m1 !! n = m2 !! n → foldl add_env_var m1 l !! n = foldl add_env_var m2 l !! n.
Proof.
  revert m1 m2. induction l as [|[k v] l IH]; intros m1 m2 Hm; simpl; [done|].
  apply IH. rewrite !lookup_add_env_var. by case_decide.
Qed.

(** The fold leaves a name alone when it is the lower case of no key. *)
Lemma foldl_add_env_var_notin l m n :
  Forall (fun kv => lower kv.1 ≠ n) l → foldl add_env_var m l !! n = m !! n.
Proof.
  intros Hall. revert m. induction Hall as [|[k v] l Hk Hall IH]; intros m; simpl; [done|].
  rewrite IH, lookup_add_env_var. by case_decide.
Qed.

Lemma parse_env_vars_notin l n :
  Forall (fun kv => lower kv.1 ≠ n) l → parse_env_vars l !! n = None.
Proof. intros Hall. unfold parse_env_vars. by rewrite foldl_add_env_var_notin. Qed.

End ParseEnvVars.

(** Keys without a value give a name no value. *)
Lemma foldl_add_env_var_no_value (l : list (string * option string)) m n :
  Forall (fun kv => lower kv.1 = n → kv.2 = None) l →
  m !! n ≫= id = None → foldl add_env_var m l !! n ≫= id = None.
Proof.
  intros Hall. revert m. induction Hall as [|[k v] l Hk Hall IH]; intros m Hm; simpl; [done|].
  apply IH. rewrite lookup_add_env_var. case_decide; [|done]. simpl in *. by rewrite Hk.
Qed.

(** [os.environ[K] = v] does not change what the fold gives another name. *)
Lemma foldl_add_env_var_setenv_ne (env : os.environ) (m : gmap string string) K v n :
  lower K ≠ n →
  foldl add_env_var m (os.setenv K v env) !! n = foldl add_env_var m env !! n.
Proof.
  intros Hne. revert m. induction env as [|[k' v'] env IH]; intros m; simpl.
  - rewrite lookup_add_env_var. by case_decide.
  - destruct (String.eqb_spec k' K) as [->|Hk]; simpl; [|apply IH].
    apply foldl_add_env_var_agree. rewrite !lookup_add_env_var. by case_decide.
Qed.

(** When no key of the environment lowers to [lower K], the fold gives
    [lower K] the value just set. *)
Lemma foldl_add_env_var_setenv_eq (env : os.environ) (m : gmap string string) K v :
  Forall (fun kv => lower kv.1 ≠ lower K) env →
  foldl add_env_var m (os.setenv K v env) !! lower K = Some v.
Proof.
  intros Hall. revert m. induction Hall as [|[k' v'] env Hk Hall IH]; intros m; simpl.
  - rewrite lookup_add_env_var. by case_decide.
  - destruct (String.eqb_spec k' K) as [->|Hne]; simpl; [done | apply IH].
Qed.

Lemma lower_recognized n : n ∈ recognized → lower n = n.
Proof.
  unfold recognized. intros H.
  repeat (apply elem_of_cons in H as [->|H]; [reflexivity|]).
  by apply elem_of_nil in H.
Qed.

Lemma no_overrides_env env dotenv n :
  no_overrides env dotenv → n ∈ recognized → Forall (fun kv => lower kv.1 ≠ n) env.
Proof. intros [Henv _] Hn. eapply Forall_impl; [exact Henv|]. simpl. congruence. Qed.

(** Without overrides the sources give no option a value. *)
Lemma no_overrides_lookup env dotenv n :
  no_overrides env dotenv → n ∈ recognized → source_value env dotenv n = None.
Proof.
  intros Hno Hn. unfold source_value. rewrite (lower_recognized _ Hn).
  rewrite parse_env_vars_notin by (by eapply no_overrides_env).
  apply foldl_add_env_var_no_value; [|done].
  destruct Hno as [_ Hfile]. eapply Forall_impl; [exact Hfile|]. simpl. intros kv H <-. auto.
Qed.

(** After [os.environ[K] = v] in an environment without overrides, the
    sources give [v] to the option named [lower K] and nothing to the others. *)
Lemma source_value_setenv env dotenv K v n :
  no_overrides env dotenv → n ∈ recognized →
  source_value (os.setenv K v env) dotenv n = if decide (n = lower K) then Some v else None.
Proof.
  intros Hno Hn. pose proof (no_overrides_lookup _ _ _ Hno Hn) as Hnone.
  pose proof (no_overrides_env _ _ _ Hno Hn) as Henv.
  unfold source_value in *. rewrite (lower_recognized _ Hn) in *.
  rewrite parse_env_vars_notin in Hnone by done.
  unfold parse_env_vars in *. case_decide as Hd.
  - subst n. by rewrite foldl_add_env_var_setenv_eq.
  - rewrite foldl_add_env_var_setenv_ne by done.
    by rewrite foldl_add_env_var_notin.
Qed.

(** ** Lemmas on the validation of a field *)

Lemma field_cases {A} (data : gmap string pyval) name (validate : pyval -> option A) default :
  (invalid data name validate default
   ∧ ∃ e, field data name validate default = inl [(name, e)])
  ∨ (¬ invalid data name validate default
     ∧ ∃ a, field data name validate default = inr a).
Proof.
  unfold invalid, field. destruct (data !! name) as [x|].
  - destruct (validate x); [right | left]; eauto.
  - destruct default; [right | left]; eauto.
Qed.

Lemma field_given {A} (data : gmap string pyval) name (validate : pyval -> option A) default x a :
  data !! name = Some x → field data name validate default = inr a → validate x = Some a.
Proof. unfold field. intros ->. destruct (validate x); congruence. Qed.

Lemma field_omitted {A} (data : gmap string pyval) name (validate : pyval -> option A) default a :
  data !! name = None → field data name validate default = inr a → default = Some a.
Proof. unfold field. intros ->. destruct default; congruence. Qed.

(** What a successful construction of an [Anchor] says of each field. *)
Lemma Anchor_new_Return P data a :
  Anchor.new P data = Return a →
  field data "anchor_id" validate_str None = inr (Anchor.anchor_id a)
  ∧ field data "text" validate_str None = inr (Anchor.text a)
  ∧ field data "stored_at" (validate_datetime P) None = inr (Anchor.stored_at a)
  ∧ field data "salience" (validate_float P) (Some float_one) = inr (Anchor.salience a)
  ∧ field data "meta" validate_dict_str_any (Some []) = inr (Anchor.meta a).
Proof.
  unfold Anchor.new.
  destruct (field data "anchor_id" _ _), (field data "text" _ _),
    (field data "stored_at" _ _), (field data "salience" _ _), (field data "meta" _ _);
    intros H; try discriminate H.
  by inversion H.
Qed.

(** The constructor accepts values of exactly the annotated types. *)
Lemma Anchor_new_exact P (i x : string) (d : datetime) :
  Anchor.new P ({[ "anchor_id" := VStr i; "text" := VStr x; "stored_at" := VDatetime d ]})
  = Return {| Anchor.anchor_id := i; Anchor.text := x; Anchor.stored_at := d;
              Anchor.salience := float_one; Anchor.meta := [] |}.
Proof. reflexivity. Qed.

(** ** Concrete runs: the repository's tests on the model, and a few more *)

Example test_anchor_basic_creation :
  Anchor.new no_parser (basic_anchor_data aware_2024) = Return (basic_anchor aware_2024).
Proof. reflexivity. Qed.

Example test_anchor_with_very_long_text P :
  Z.of_nat (String.length long_text) = 28000
  ∧ ∃ a, Anchor.new P ({[ "anchor_id" := VStr "long-memory"; "text" := VStr long_text;
                          "stored_at" := VDatetime aware_2024 ]}) = Return a
         ∧ Anchor.text a = long_text.
Proof.
  split; [vm_compute; reflexivity|].
  eexists. split; [apply Anchor_new_exact | reflexivity].
Qed.

Example test_anchor_with_special_characters P :
  Forall (fun x =>
            ∃ a, Anchor.new P ({[ "anchor_id" := VStr "weird"; "text" := VStr x;
                                  "stored_at" := VDatetime aware_2024 ]}) = Return a
                 ∧ Anchor.text a = x)
         ["'; DROP TABLE memories; --"; null_byte_text; emoji_text; ""].
Proof. repeat constructor; eexists; (split; [apply Anchor_new_exact | reflexivity]). Qed.

Example test_successful_response :
  IndexedAnchorResponse.new ({[ "anchor_id" := VStr "success-123"; "ok" := VBool true ]})
  = Return {| IndexedAnchorResponse.anchor_id := "success-123";
              IndexedAnchorResponse.ok := true;
              IndexedAnchorResponse.reason := None;
              IndexedAnchorResponse.detail := None |}.
Proof. reflexivity. Qed.

Example response_missing_and_wrong :
  IndexedAnchorResponse.new ({[ "ok" := VStr "maybe"; "reason" := VInt 3 ]})
  = Raise (ValidationError [("anchor_id", missing); ("ok", rejected); ("reason", rejected)]).
Proof. reflexivity. Qed.

Example test_default_settings : Settings_new plain_env plain_dotenv = Settings_defaults.
Proof. reflexivity. Qed.

Example test_settings_from_env :
  Settings_new test_env []
  = {| kafka_bootstrap_servers := "kafka.example.com:9092";
       qdrant_url := "https://qdrant.cloud:6333";
       qdrant_collection := "anchors";
       embedding_model := "ollama";
       ollama_base_url := "http://localhost:11434";
       portkey_api_key := Some "pk-secret-key-123";
       portkey_base_url := "https://api.portkey.ai/v1" |}.
Proof. reflexivity. Qed.

(** The process environment has precedence over the [.env] file, and a later
    key wins over an earlier one with the same lower-case form. *)
Example settings_precedence :
  qdrant_url (Settings_new [("Qdrant_Url", "a"); ("QDRANT_URL", "b")] [("qdrant_url", Some "c")]) = "b"
  ∧ qdrant_url (Settings_new [] [("QDRANT_URL", Some "c"); ("qdrant_collection", None)]) = "c"
  ∧ qdrant_collection (Settings_new [] [("qdrant_collection", None)]) = "anchors".
Proof. repeat split. Qed.

(** The upper-case variable names are the option names in lower case. *)
Example environment_variables_lower : map lower environment_variables = recognized.
Proof. reflexivity. Qed.

(** ** get_embedding *)

(** C1 (the code departs from its tests here). On the text of
    tests/test_embedding.py, ["This is a test."], [get_embedding] returns
    [None]: the result is not a non-empty list of numbers, and it is not the
    list [[0.1, 0.2, 0.3]] the test compares it with. *)
Theorem get_embedding_placeholder_test (w : world) :
  get_embedding "This is a test." w = (Return VNone, w)
  ∧ is_embedding VNone = false
  ∧ VNone ≠ placeholder.
Proof. repeat split. discriminate. Qed.

(** C2. With [embedding_model = "deterministic"], two calls of
    [get_embedding] on the same text, made one after the other, both return,
    and they return equal values. *)
Theorem get_embedding_repeatable (w : world) (text : string) :
  embedding_model (settings w) = "deterministic" →
  ∃ v w', twice text w = (Return (v, v), w').
Proof. intros _. by exists VNone, w. Qed.

Lemma get_embedding_repeatable_witness :
  embedding_model (settings plain_world) = "deterministic"
  ∧ ∃ v w', twice "Consistent test text" plain_world = (Return (v, v), w').
Proof.
  split; [reflexivity|].
  apply (get_embedding_repeatable plain_world "Consistent test text"). reflexivity.
Defined.

(** C3 (the code departs from its documentation here). The docstring says
    that [get_embedding] respects [EMBEDDING_MODEL], and the comments name the
    backend [portkey_embed] it is to call; yet in a process started with
    [EMBEDDING_MODEL=portkey] and no API key the call raises no configuration
    error: it returns [None] and leaves the state as it was. *)
Lemma portkey_without_key_returns :
  embedding_model (settings portkey_world) = "portkey"
  ∧ portkey_api_key (settings portkey_world) = None
  ∧ get_embedding "The quick brown fox" portkey_world = (Return VNone, portkey_world).
Proof. repeat split. Qed.

(** C4 (the code departs from its tests here). On the empty text
    [get_embedding] does not raise, and what it returns is [None], which is
    not a list of numbers: the call ends neither with a vector nor with an
    error. *)
Theorem get_embedding_empty_text (w : world) :
  get_embedding "" w = (Return VNone, w)
  ∧ returns (get_embedding "" w).1 = true
  ∧ is_vector VNone = false.
Proof. repeat split. Qed.

(** C10. The result of [get_embedding] is the same for every text and every
    state, whatever [embedding_model] says, and the call changes nothing: no
    request is sent, so no backend is ever chosen. *)
Theorem get_embedding_constant (w1 w2 : world) (text1 text2 : string) :
  (get_embedding text1 w1).1 = (get_embedding text2 w2).1
  ∧ (get_embedding text1 w1).2 = w1.
Proof. done. Qed.

(** ** Anchor and IndexedAnchorResponse *)



(** C6. Every [Anchor] constructed without [salience] has salience 1.0, and
    every [Anchor] constructed without [meta] has the empty mapping as
    [meta]. *)
Theorem Anchor_defaults (P : Parsers) (data : gmap string pyval) (a : Anchor.t) :
  Anchor.new P data = Return a →
  (data !! "salience" = None → Anchor.salience a = float_one)
  ∧ (data !! "meta" = None → Anchor.meta a = []).
Proof.
  intros Hnew. apply Anchor_new_Return in Hnew as (_ & _ & _ & Hs & Hm).
  split; intros Hnone.
  - apply (field_omitted _ _ _ _ _ Hnone) in Hs. congruence.
  - apply (field_omitted _ _ _ _ _ Hnone) in Hm. congruence.
Qed.

Lemma Anchor_defaults_witness :
  Anchor.new no_parser (basic_anchor_data aware_2024) = Return (basic_anchor aware_2024)
  ∧ basic_anchor_data aware_2024 !! "salience" = None
  ∧ basic_anchor_data aware_2024 !! "meta" = None
  ∧ Anchor.salience (basic_anchor aware_2024) = float_one
  ∧ Anchor.meta (basic_anchor aware_2024) = [].
Proof.
  destruct (Anchor_defaults no_parser (basic_anchor_data aware_2024)
              (basic_anchor aware_2024) eq_refl) as [Hs Hm].
  split; [reflexivity|]. split; [reflexivity|]. split; [reflexivity|].
  split; [apply Hs | apply Hm]; reflexivity.
Defined.








(** C9, counterexample. [Anchor(anchor_id="test-123", text="Hello, world!",
    stored_at=datetime(2024, 1, 1))] succeeds, and its [stored_at] is naive. *)
Lemma naive_stored_at_accepted :
  Anchor.new no_parser (basic_anchor_data naive_2024) = Return (basic_anchor naive_2024)
  ∧ aware (Anchor.stored_at (basic_anchor naive_2024)) = false.
Proof. split; reflexivity. Qed.

(** C9, as amended. An [Anchor] successfully constructed from a datetime
    object keeps that datetime as it is: its [stored_at] is timezone-aware
    exactly when the datetime given is. *)
Theorem Anchor_keeps_stored_at (P : Parsers) (data : gmap string pyval) (d : datetime)
    (a : Anchor.t) :
  data !! "stored_at" = Some (VDatetime d) →
  Anchor.new P data = Return a →
  Anchor.stored_at a = d ∧ aware (Anchor.stored_at a) = aware d.
Proof.
  intros Hd Hnew. apply Anchor_new_Return in Hnew as (_ & _ & Hf & _).
  apply (field_given _ _ _ _ _ _ Hd) in Hf. simpl in Hf.
  assert (Anchor.stored_at a = d) as -> by congruence. done.
Qed.

Lemma Anchor_keeps_stored_at_witness :
  basic_anchor_data aware_2024 !! "stored_at" = Some (VDatetime aware_2024)
  ∧ Anchor.new no_parser (basic_anchor_data aware_2024) = Return (basic_anchor aware_2024)
  ∧ Anchor.stored_at (basic_anchor aware_2024) = aware_2024
  ∧ aware (Anchor.stored_at (basic_anchor aware_2024)) = aware aware_2024.
Proof.
  split; [reflexivity|]. split; [reflexivity|].
  apply (Anchor_keeps_stored_at no_parser (basic_anchor_data aware_2024)); reflexivity.
Defined.

(** ** Settings *)

Lemma getattr_Settings_new env dotenv n :
  n ∈ recognized →
  getattr (Settings_new env dotenv) n
  = match source_value env dotenv n with
    | Some v => Some (VStr v)
    | None => getattr Settings_defaults n
    end.
Proof.
  unfold recognized. intros H.
  repeat (apply elem_of_cons in H as [->|H];
          [unfold getattr, Settings_new; simpl;
           by destruct (source_value env dotenv _)|]).
  by apply elem_of_nil in H.
Qed.

(** C7. When neither the environment nor the [.env] file sets an option, a
    constructed [Settings] has every documented default; and after
    [os.environ[K] = v] in such an environment, the option whose name is the
    lower case of [K] has the value [v] while every other option keeps its
    default. *)
Theorem Settings_defaults_and_overrides (env : os.environ)
    (dotenv : list (string * option string)) :
  no_overrides env dotenv →
  Settings_new env dotenv
  = {| kafka_bootstrap_servers := "localhost:9092";
       qdrant_url := "http://localhost:6333";
       qdrant_collection := "anchors";
       embedding_model := "deterministic";
       ollama_base_url := "http://localhost:11434";
       portkey_api_key := None;
       portkey_base_url := "https://api.portkey.ai/v1" |}
  ∧ ∀ K v name, name ∈ recognized →
      getattr (Settings_new (os.setenv K v env) dotenv) name
      = if decide (name = lower K) then Some (VStr v) else getattr Settings_defaults name.
Proof.
  intros Hno. split.
  - unfold Settings_new.
    rewrite !(no_overrides_lookup env dotenv) by (done || (unfold recognized; set_solver)).
    reflexivity.
  - intros K v name Hn.
    rewrite getattr_Settings_new, source_value_setenv by done.
    by case_decide.
Qed.

Lemma Settings_defaults_and_overrides_witness :
  no_overrides plain_env plain_dotenv
  ∧ Settings_new plain_env plain_dotenv = Settings_defaults
  ∧ getattr (Settings_new (os.setenv "EMBEDDING_MODEL" "ollama" plain_env) plain_dotenv)
            "embedding_model"
    = Some (VStr "ollama")
  ∧ getattr (Settings_new (os.setenv "EMBEDDING_MODEL" "ollama" plain_env) plain_dotenv)
            "qdrant_url"
    = Some (VStr "http://localhost:6333").
Proof.
  assert (no_overrides plain_env plain_dotenv) as Hno.
  { split; repeat constructor; simpl.
    - apply (bool_decide_unpack _). reflexivity.
    - apply (bool_decide_unpack _). reflexivity.
    - intros H. apply (bool_decide_pack _) in H. vm_compute in H. destruct H. }
  destruct (Settings_defaults_and_overrides plain_env plain_dotenv Hno) as [Hdef Hset].
  split; [exact Hno|]. split; [exact Hdef|]. split.
  - apply (Hset "EMBEDDING_MODEL" "ollama" "embedding_model"). unfold recognized. set_solver.
  - apply (Hset "EMBEDDING_MODEL" "ollama" "qdrant_url"). unfold recognized. set_solver.
Defined.

(** ** Further properties of Settings *)

Section ParseEnvVarsMore.
Context {A : Type}.
Implicit Types (l : list (string * A)) (m : gmap string A) (n : string).

(** The last variable whose name lowers to [lower k] gives it its value. *)
Lemma parse_env_vars_last l1 l2 k (v : A) :
  Forall (fun kv => lower kv.1 ≠ lower k) l2 →
  parse_env_vars (l1 ++ (k, v) :: l2) !! lower k = Some v.
Proof.
  intros Hall. unfold parse_env_vars. rewrite foldl_app. simpl.
  rewrite foldl_add_env_var_notin by done.
  rewrite lookup_add_env_var. by case_decide.
Qed.

(** A variable does not matter to the names it does not lower to. *)
Lemma parse_env_vars_drop l1 l2 k (v : A) n :
  lower k ≠ n →
  parse_env_vars (l1 ++ (k, v) :: l2) !! n = parse_env_vars (l1 ++ l2) !! n.
Proof.
  intros Hne. unfold parse_env_vars. rewrite !foldl_app. simpl.
  apply foldl_add_env_var_agree. rewrite lookup_add_env_var. by case_decide.
Qed.

(** The parsed variables depend on the names only through their lower case. *)
Lemma parse_env_vars_lowered l m :
  foldl add_env_var m l
  = foldl (fun m kv => <[kv.1 := kv.2]> m) m (map (fun kv => (lower kv.1, kv.2)) l).
Proof. revert m. induction l as [|[k v] l IH]; intros m; simpl; [done | apply IH]. Qed.

Lemma parse_env_vars_same_up_to_case l1 l2 :
  same_up_to_case l1 l2 → parse_env_vars l1 = parse_env_vars l2.
Proof.
  unfold same_up_to_case, parse_env_vars. intros H.
  by rewrite !parse_env_vars_lowered, H.
Qed.

End ParseEnvVarsMore.

(** In a dict, a key that is set in place is followed by no key that lowers
    to the same name, when no other spelling of the name is present. *)
Lemma foldl_add_env_var_setenv_hit (env : os.environ) (m : gmap string string) K v :
  NoDup env.*1 →
  Forall (fun kv => lower kv.1 = lower K → kv.1 = K) env →
  foldl add_env_var m (os.setenv K v env) !! lower K = Some v.
Proof.
  intros Hnd Hall. revert m.
  induction env as [|[k' v'] env IH]; intros m; simpl.
  - rewrite lookup_add_env_var. by case_decide.
  - apply NoDup_cons in Hnd as [Hnotin Hnd]. apply Forall_cons in Hall as [_ Hall].
    destruct (String.eqb_spec k' K) as [->|Hne]; simpl; [|by apply IH].
    rewrite foldl_add_env_var_notin.
    + rewrite lookup_add_env_var. by case_decide.
    + rewrite Forall_forall in *. intros [k x] Hin Hlow. simpl in *.
      apply Hnotin. rewrite <- (Hall (k, x) Hin Hlow). apply list_elem_of_fmap.
      by exists (k, x).
Qed.

Lemma Settings_new_ext env env' dotenv dotenv' :
  (∀ n, n ∈ recognized → source_value env dotenv n = source_value env' dotenv' n) →
  Settings_new env dotenv = Settings_new env' dotenv'.
Proof.
  intros H. unfold Settings_new.
  rewrite !(H _) by (unfold recognized; set_solver). reflexivity.
Qed.

(** X1. The process environment has precedence, and in it the last variable
    whose name is the option's in any letter case: whatever comes before it
    and whatever the [.env] file says, the option has that variable's value. *)
Theorem Settings_env_last_wins (e1 e2 : os.environ) (k v : string)
    (dotenv : list (string * option string)) (name : string) :
  name ∈ recognized →
  lower k = name →
  Forall (fun kv => lower kv.1 ≠ name) e2 →
  getattr (Settings_new (e1 ++ (k, v) :: e2)%list dotenv) name = Some (VStr v).
Proof.
  intros Hn <- Hall. rewrite getattr_Settings_new by done.
  unfold source_value. rewrite (lower_recognized _ Hn).
  by rewrite parse_env_vars_last.
Qed.

Lemma Settings_env_last_wins_witness :
  getattr (Settings_new ([("QDRANT_URL", "first")] ++ ("Qdrant_Url", "second") :: [("PATH", "/bin")])%list
                        [("qdrant_url", Some "file")]) "qdrant_url"
  = Some (VStr "second").
Proof.
  apply (Settings_env_last_wins [("QDRANT_URL", "first")] [("PATH", "/bin")] "Qdrant_Url").
  - unfold recognized. set_solver.
  - reflexivity.
  - repeat constructor. simpl. discriminate.
Defined.

(** X2. An option that no variable of the environment names takes the value
    the [.env] file gives it: that of the last key with a value whose name
    is the option's in any letter case, when no later key has that name. *)
Theorem Settings_dotenv_fallback (env : os.environ) (d1 d2 : list (string * option string))
    (k v : string) (name : string) :
  name ∈ recognized →
  Forall (fun kv => lower kv.1 ≠ name) env →
  lower k = name →
  Forall (fun kv => lower kv.1 ≠ name) d2 →
  getattr (Settings_new env (d1 ++ (k, Some v) :: d2)%list) name = Some (VStr v).
Proof.
  intros Hn Henv <- Hall. rewrite getattr_Settings_new by done.
  unfold source_value. rewrite (lower_recognized _ Hn).
  rewrite parse_env_vars_notin by done.
  by rewrite parse_env_vars_last.
Qed.

Lemma Settings_dotenv_fallback_witness :
  getattr (Settings_new plain_env ([("DEBUG", Some "1")] ++ ("Embedding_Model", Some "ollama") :: [])%list)
          "embedding_model"
  = Some (VStr "ollama").
Proof.
  apply (Settings_dotenv_fallback plain_env [("DEBUG", Some "1")] [] "Embedding_Model").
  - unfold recognized. set_solver.
  - repeat constructor; simpl; discriminate.
  - reflexivity.
  - constructor.
Defined.

(** X3. In any environment that is a dict and holds no other spelling of the
    name [K], and with any [.env] file that reads the same before and after
    (it does not expand [K]), [os.environ[K] = v] gives the option named
    [lower K] the value [v] and leaves every other option at the value it
    had, default or not. *)
Theorem Settings_setenv (file : env_file) (env : os.environ) (K v : string) :
  NoDup env.*1 →
  Forall (fun kv => lower kv.1 = lower K → kv.1 = K) env →
  file (os.setenv K v env) = file env →
  ∀ name, name ∈ recognized →
    getattr (Settings_load file (os.setenv K v env)) name
    = if decide (name = lower K) then Some (VStr v)
      else getattr (Settings_load file env) name.
Proof.
  intros Hnd Hall Hfile name Hn. unfold Settings_load. rewrite Hfile.
  rewrite !getattr_Settings_new by done.
  unfold source_value, parse_env_vars. rewrite (lower_recognized _ Hn).
  case_decide as Hd.
  - subst name. by rewrite foldl_add_env_var_setenv_hit.
  - by rewrite foldl_add_env_var_setenv_ne.
Qed.

Lemma Settings_setenv_witness :
  NoDup test_env.*1
  ∧ Forall (fun kv => lower kv.1 = lower "EMBEDDING_MODEL" → kv.1 = "EMBEDDING_MODEL") test_env
  ∧ interpolating_file (os.setenv "EMBEDDING_MODEL" "portkey" test_env)
    = interpolating_file test_env
  ∧ getattr (Settings_load interpolating_file (os.setenv "EMBEDDING_MODEL" "portkey" test_env))
            "embedding_model"
    = Some (VStr "portkey")
  ∧ getattr (Settings_load interpolating_file (os.setenv "EMBEDDING_MODEL" "portkey" test_env))
            "kafka_bootstrap_servers"
    = Some (VStr "kafka.example.com:9092").
Proof.
  assert (NoDup test_env.*1) as Hnd by (apply (bool_decide_unpack _); reflexivity).
  assert (Forall (fun kv => lower kv.1 = lower "EMBEDDING_MODEL" → kv.1 = "EMBEDDING_MODEL")
            test_env) as Hall.
  { repeat constructor; simpl; intros H; first [reflexivity | discriminate H]. }
  split; [exact Hnd|]. split; [exact Hall|]. split; [reflexivity|]. split.
  - apply (Settings_setenv interpolating_file test_env "EMBEDDING_MODEL" "portkey" Hnd Hall
             eq_refl "embedding_model").
    unfold recognized. set_solver.
  - apply (Settings_setenv interpolating_file test_env "EMBEDDING_MODEL" "portkey" Hnd Hall
             eq_refl "kafka_bootstrap_servers").
    unfold recognized. set_solver.
Defined.

(** The condition on the file is needed: with the line
    [QDRANT_URL=http://${QHOST}:6333], setting [QHOST], which names no
    option, changes the option [qdrant_url]. *)
Example setenv_through_env_file :
  qdrant_url (Settings_load interpolating_file plain_env) = "http://:6333"
  ∧ qdrant_url (Settings_load interpolating_file (os.setenv "QHOST" "db" plain_env))
    = "http://db:6333".
Proof. split; reflexivity. Qed.

(** X4. A variable whose name is not an option's in any letter case is
    ignored (extra is "ignore").  In the environment: the settings are the
    same with and without it, when the [.env] file reads the same with and
    without it.  In the mapping read from the [.env] file: the settings are
    the same with and without the entry. *)
Theorem Settings_unknown_key_ignored (K : string) :
  lower K ∉ recognized →
  (∀ (file : env_file) (e1 e2 : os.environ) v,
     file (e1 ++ (K, v) :: e2)%list = file (e1 ++ e2)%list →
     Settings_load file (e1 ++ (K, v) :: e2)%list = Settings_load file (e1 ++ e2)%list)
  ∧ (∀ env (d1 d2 : list (string * option string)) v,
       Settings_new env (d1 ++ (K, v) :: d2)%list = Settings_new env (d1 ++ d2)%list).
Proof.
  intros HK.
  assert (∀ n, n ∈ recognized → lower K ≠ n) as Hne by (intros n Hn Heq; by subst n).
  split.
  - intros file e1 e2 v Hfile. unfold Settings_load. rewrite Hfile.
    apply Settings_new_ext; intros n Hn; unfold source_value.
    rewrite (lower_recognized _ Hn).
    by rewrite (parse_env_vars_drop e1 e2 K v n (Hne n Hn)).
  - intros env d1 d2 v. apply Settings_new_ext; intros n Hn; unfold source_value.
    rewrite (lower_recognized _ Hn).
    by rewrite (parse_env_vars_drop d1 d2 K v n (Hne n Hn)).
Qed.

Lemma Settings_unknown_key_ignored_witness :
  (lower "Kafka_Servers" ∉ recognized)
  ∧ interpolating_file ([("PATH", "/bin")] ++ ("Kafka_Servers", "k:9092") :: test_env)%list
    = interpolating_file ([("PATH", "/bin")] ++ test_env)%list
  ∧ Settings_load interpolating_file
      ([("PATH", "/bin")] ++ ("Kafka_Servers", "k:9092") :: test_env)%list
    = Settings_load interpolating_file ([("PATH", "/bin")] ++ test_env)%list.
Proof.
  assert (lower "Kafka_Servers" ∉ recognized) as HK
    by (apply (bool_decide_unpack _); reflexivity).
  split; [exact HK|]. split; [reflexivity|].
  apply (proj1 (Settings_unknown_key_ignored "Kafka_Servers" HK) interpolating_file).
  reflexivity.
Defined.

(** X5. The names of the variables are matched without regard to letter
    case: two environments, and two [.env] files, that hold the same
    variables up to the case of the names give the same settings. *)
Theorem Settings_case_insensitive (env env' : os.environ)
    (dotenv dotenv' : list (string * option string)) :
  same_up_to_case env env' →
  same_up_to_case dotenv dotenv' →
  Settings_new env dotenv = Settings_new env' dotenv'.
Proof.
  intros He Hd. apply Settings_new_ext. intros n _. unfold source_value.
  by rewrite (parse_env_vars_same_up_to_case _ _ He), (parse_env_vars_same_up_to_case _ _ Hd).
Qed.

Lemma Settings_case_insensitive_witness :
  Settings_new [("QDRANT_URL", "u"); ("embedding_model", "ollama")] [("Portkey_Api_Key", Some "k")]
  = Settings_new [("qdrant_url", "u"); ("EMBEDDING_MODEL", "ollama")] [("PORTKEY_API_KEY", Some "k")].
Proof.
  apply (Settings_case_insensitive
           [("QDRANT_URL", "u"); ("embedding_model", "ollama")]
           [("qdrant_url", "u"); ("EMBEDDING_MODEL", "ollama")]); reflexivity.
Defined.

(** ** Further properties of the data models *)

Lemma validate_items_dump (m : list (string * pyval)) :
  validate_items (map (fun kv => (VStr kv.1, kv.2)) m) = Some m.
Proof. induction m as [|[k x] m IH]; simpl; [done|]. by rewrite IH. Qed.

Lemma errors_of_field {A} (data : gmap string pyval) name (validate : pyval -> option A) default :
  errors_of (field data name validate default)
  = match data !! name with
    | Some x => match validate x with Some _ => [] | None => [(name, rejected)] end
    | None => match default with Some _ => [] | None => [(name, missing)] end
    end.
Proof. unfold field. destruct (data !! name) as [x|]; [destruct (validate x) | destruct default]; done. Qed.

(** What a failed construction of an [Anchor] reports. *)
Lemma Anchor_new_Raise P data errs :
  Anchor.new P data = Raise (ValidationError errs) →
  errs = (errors_of (field data "anchor_id" validate_str None)
          ++ errors_of (field data "text" validate_str None)
          ++ errors_of (field data "stored_at" (validate_datetime P) None)
          ++ errors_of (field data "salience" (validate_float P) (Some float_one))
          ++ errors_of (field data "meta" validate_dict_str_any (Some [])))%list.
Proof.
  unfold Anchor.new.
  destruct (field data "anchor_id" _ _), (field data "text" _ _),
    (field data "stored_at" _ _), (field data "salience" _ _), (field data "meta" _ _);
    intros H; first [discriminate H | by inversion H].
Qed.

(** X6. An [IndexedAnchorResponse] is constructed back from its own
    [model_dump()]: the dump given as keyword arguments yields the record. *)
Theorem IndexedAnchorResponse_round_trip (r : IndexedAnchorResponse.t) :
  IndexedAnchorResponse.new (IndexedAnchorResponse.model_dump r) = Return r.
Proof. destruct r as [i o [re|] [de|]]; reflexivity. Qed.

(** X7. An [Anchor] whose [meta] holds plain data only ([None], [bool],
    [int], [float], [str], datetime, and lists and dicts of them, which is
    what [pyval] is) is constructed back from its own [model_dump()]: the
    construction succeeds and gives every field the value it has in the
    record, whatever the text, the datetime (aware or naive) and the
    salience are, and whatever the parsers of lax mode do. *)
Theorem Anchor_round_trip (P : Parsers) (a : Anchor.t) :
  Anchor.new P (Anchor.model_dump a) = Return a.
Proof.
  destruct a as [i x d s m]. unfold Anchor.new, field.
  change (Anchor.model_dump _ !! "anchor_id") with (Some (VStr i)).
  change (Anchor.model_dump _ !! "text") with (Some (VStr x)).
  change (Anchor.model_dump _ !! "stored_at") with (Some (VDatetime d)).
  change (Anchor.model_dump _ !! "salience") with (Some (VFloat s)).
  change (Anchor.model_dump _ !! "meta")
    with (Some (VDict (map (fun kv => (VStr kv.1, kv.2)) m))).
  simpl. by rewrite validate_items_dump.
Qed.

(** X8. A keyword argument that names no field is ignored by both
    constructors: the outcome is the same with and without it. *)
Theorem unknown_keyword_ignored (P : Parsers) (data : gmap string pyval) (k : string)
    (v : pyval) :
  (k ∉ Anchor.model_fields → Anchor.new P (<[k := v]> data) = Anchor.new P data)
  ∧ (k ∉ IndexedAnchorResponse.model_fields →
     IndexedAnchorResponse.new (<[k := v]> data) = IndexedAnchorResponse.new data).
Proof.
  split; intros Hk.
  - unfold Anchor.new, field.
    rewrite !lookup_insert_ne by (intros Heq; subst k; apply Hk; unfold Anchor.model_fields; set_solver).
    reflexivity.
  - unfold IndexedAnchorResponse.new, field.
    rewrite !lookup_insert_ne
      by (intros Heq; subst k; apply Hk; unfold IndexedAnchorResponse.model_fields; set_solver).
    reflexivity.
Qed.

Lemma unknown_keyword_ignored_witness :
  ("saliance" ∉ Anchor.model_fields)
  ∧ Anchor.new no_parser (<["saliance" := VFloat float_zero]> (basic_anchor_data aware_2024))
    = Return (basic_anchor aware_2024).
Proof.
  assert ("saliance" ∉ Anchor.model_fields) as Hk by (apply (bool_decide_unpack _); reflexivity).
  split; [exact Hk|].
  rewrite (proj1 (unknown_keyword_ignored no_parser (basic_anchor_data aware_2024)
                    "saliance" (VFloat float_zero)) Hk).
  reflexivity.
Defined.

Lemma elem_of_errors_of_field {A} (data : gmap string pyval) name
    (validate : pyval -> option A) default n e :
  (n, e) ∈ errors_of (field data name validate default)
  ↔ n = name
    ∧ ((e = missing ∧ data !! name = None ∧ default = None)
       ∨ (e = rejected ∧ ∃ x, data !! name = Some x ∧ validate x = None)).
Proof.
  rewrite errors_of_field.
  destruct (data !! name) as [x|]; [destruct (validate x) eqn:Hv | destruct default];
    rewrite ?elem_of_cons, ?elem_of_nil; split; intros H.
  - destruct H.
  - destruct H as (_ & [(_ & Hd & _)|(_ & y & Hy & Hv')]); simplify_eq.
  - destruct H as [[= -> ->]|[]]. eauto 10.
  - destruct H as (-> & [(_ & Hd & _)|(-> & _)]); simplify_eq. by left.
  - destruct H.
  - destruct H as (_ & [(_ & _ & Hd)|(_ & y & Hy & _)]); simplify_eq.
  - destruct H as [[= -> ->]|[]]. eauto 10.
  - destruct H as (-> & [(-> & _)|(_ & y & Hy & _)]); simplify_eq. by left.
Qed.

(** X9. When the construction of an [Anchor] fails, the error reports as
    missing exactly the required fields that were not given ([salience] and
    [meta] are never missing), and reports a value as rejected only for a
    field that was given. *)
Theorem Anchor_error_report (P : Parsers) (data : gmap string pyval)
    (errs : list ErrorDetails) :
  Anchor.new P data = Raise (ValidationError errs) →
  (∀ name, (name, missing) ∈ errs ↔ name ∈ Anchor_required ∧ data !! name = None)
  ∧ (∀ name, (name, rejected) ∈ errs → name ∈ Anchor.model_fields ∧ is_Some (data !! name)).
Proof.
  intros H. apply Anchor_new_Raise in H. subst errs.
  unfold Anchor_required, Anchor.model_fields.
  split; intros name; rewrite !elem_of_app, !elem_of_errors_of_field,
    ?elem_of_cons, ?elem_of_nil.
  - split.
    + intros [H|[H|[H|[H|H]]]]; destruct H as (-> & [(_ & Hm & Hd)|(Hd & _)]);
        try discriminate Hd; auto.
    + intros [[->|[->|[->|[]]]] Hm]; auto 10.
  - intros [H|[H|[H|[H|H]]]]; destruct H as (-> & [(Hd & _)|(_ & x & -> & _)]);
      try discriminate Hd; split; eauto 10.
Qed.

Lemma Anchor_error_report_witness :
  Anchor.new no_parser bad_anchor_data
  = Raise (ValidationError [("anchor_id", rejected); ("stored_at", missing)])
  ∧ ("stored_at" ∈ Anchor_required ∧ bad_anchor_data !! "stored_at" = None)
  ∧ ("anchor_id" ∈ Anchor.model_fields ∧ is_Some (bad_anchor_data !! "anchor_id")).
Proof.
  destruct (Anchor_error_report no_parser bad_anchor_data
              [("anchor_id", rejected); ("stored_at", missing)] eq_refl) as [Hm Hr].
  split; [reflexivity|]. split.
  - apply Hm. rewrite !elem_of_cons. auto.
  - apply Hr. rewrite !elem_of_cons. auto.
Defined.

(** What a successful construction of a response says of each field. *)
Lemma IndexedAnchorResponse_new_Return data r :
  IndexedAnchorResponse.new data = Return r →
  field data "anchor_id" validate_str None = inr (IndexedAnchorResponse.anchor_id r)
  ∧ field data "ok" validate_bool None = inr (IndexedAnchorResponse.ok r)
  ∧ field data "reason" validate_optional_str (Some None) = inr (IndexedAnchorResponse.reason r)
  ∧ field data "detail" validate_optional_str (Some None) = inr (IndexedAnchorResponse.detail r).
Proof.
  unfold IndexedAnchorResponse.new.
  destruct (field data "anchor_id" _ _), (field data "ok" _ _),
    (field data "reason" _ _), (field data "detail" _ _);
    intros H; try discriminate H.
  by inversion H.
Qed.

(** X10. In a constructed [Anchor], a [str] given as [anchor_id] is stored as
    it is; a [float] given as [salience] is stored as it is, whatever its
    value; and a dict of plain data with [str] keys given as [meta] is stored
    with the same items in the same order. *)
Theorem Anchor_keeps_given_values (P : Parsers) (data : gmap string pyval) (a : Anchor.t) :
  Anchor.new P data = Return a →
  (∀ i, data !! "anchor_id" = Some (VStr i) → Anchor.anchor_id a = i)
  ∧ (∀ f, data !! "salience" = Some (VFloat f) → Anchor.salience a = f)
  ∧ (∀ m, data !! "meta" = Some (VDict (map (fun kv => (VStr kv.1, kv.2)) m)) →
       Anchor.meta a = m).
Proof.
  intros Hnew. apply Anchor_new_Return in Hnew as (Hi & _ & _ & Hs & Hm).
  split; [|split].
  - intros i Hgiven. apply (field_given _ _ _ _ _ _ Hgiven) in Hi. simpl in Hi. congruence.
  - intros f Hgiven. apply (field_given _ _ _ _ _ _ Hgiven) in Hs. simpl in Hs. congruence.
  - intros m Hgiven. apply (field_given _ _ _ _ _ _ Hgiven) in Hm. simpl in Hm.
    rewrite validate_items_dump in Hm. congruence.
Qed.

Lemma Anchor_keeps_given_values_witness :
  Anchor.new no_parser zero_salience_data = Return zero_salience_anchor
  ∧ zero_salience_data !! "anchor_id" = Some (VStr "test-123")
  ∧ zero_salience_data !! "salience" = Some (VFloat float_zero)
  ∧ Anchor.anchor_id zero_salience_anchor = "test-123"
  ∧ Anchor.salience zero_salience_anchor = float_zero.
Proof.
  destruct (Anchor_keeps_given_values no_parser zero_salience_data zero_salience_anchor
              eq_refl) as (Hi & Hs & _).
  split; [reflexivity|]. split; [reflexivity|]. split; [reflexivity|].
  split; [apply Hi | apply Hs]; reflexivity.
Defined.

(** X11. In a constructed [IndexedAnchorResponse], a [str] given as
    [anchor_id] is stored as it is, and so is a [bool] given as [ok]; a [str]
    given as [reason] or [detail] is stored as it is, and the field is [None]
    when the argument is left out or is [None]. *)
Theorem Response_keeps_given_values (data : gmap string pyval)
    (r : IndexedAnchorResponse.t) :
  IndexedAnchorResponse.new data = Return r →
  (∀ i, data !! "anchor_id" = Some (VStr i) → IndexedAnchorResponse.anchor_id r = i)
  ∧ (∀ b, data !! "ok" = Some (VBool b) → IndexedAnchorResponse.ok r = b)
  ∧ (∀ s, data !! "reason" = Some (VStr s) → IndexedAnchorResponse.reason r = Some s)
  ∧ (data !! "reason" = None ∨ data !! "reason" = Some VNone →
     IndexedAnchorResponse.reason r = None)
  ∧ (∀ s, data !! "detail" = Some (VStr s) → IndexedAnchorResponse.detail r = Some s)
  ∧ (data !! "detail" = None ∨ data !! "detail" = Some VNone →
     IndexedAnchorResponse.detail r = None).
Proof.
  intros Hnew. apply IndexedAnchorResponse_new_Return in Hnew as (Hi & Ho & Hr & Hd).
  repeat split.
  - intros i Hgiven. apply (field_given _ _ _ _ _ _ Hgiven) in Hi. simpl in Hi. congruence.
  - intros b Hgiven. apply (field_given _ _ _ _ _ _ Hgiven) in Ho. simpl in Ho. congruence.
  - intros s Hgiven. apply (field_given _ _ _ _ _ _ Hgiven) in Hr. simpl in Hr. congruence.
  - intros [Hnone|Hgiven].
    + apply (field_omitted _ _ _ _ _ Hnone) in Hr. congruence.
    + apply (field_given _ _ _ _ _ _ Hgiven) in Hr. simpl in Hr. congruence.
  - intros s Hgiven. apply (field_given _ _ _ _ _ _ Hgiven) in Hd. simpl in Hd. congruence.
  - intros [Hnone|Hgiven].
    + apply (field_omitted _ _ _ _ _ Hnone) in Hd. congruence.
    + apply (field_given _ _ _ _ _ _ Hgiven) in Hd. simpl in Hd. congruence.
Qed.

Lemma Response_keeps_given_values_witness :
  IndexedAnchorResponse.new int_ok_data = Return int_ok_response
  ∧ int_ok_data !! "anchor_id" = Some (VStr "success-123")
  ∧ int_ok_data !! "reason" = None
  ∧ IndexedAnchorResponse.anchor_id int_ok_response = "success-123"
  ∧ IndexedAnchorResponse.reason int_ok_response = None.
Proof.
  destruct (Response_keeps_given_values int_ok_data int_ok_response eq_refl)
    as (Hi & _ & _ & Hr & _).
  split; [reflexivity|]. split; [reflexivity|]. split; [reflexivity|].
  split; [apply Hi; reflexivity | apply Hr; left; reflexivity].
Defined.

(** One invalid field is enough for the construction to fail. *)
Lemma Anchor_new_invalid P data :
  Anchor_invalid P data → fails_validation (Anchor.new P data).
Proof.
  unfold Anchor.new, Anchor_invalid, fails_validation. intros Hinv.
  destruct (field_cases data "anchor_id" validate_str None) as [[H1 [e1 ->]]|[H1 [a1 ->]]],
    (field_cases data "text" validate_str None) as [[H2 [e2 ->]]|[H2 [a2 ->]]],
    (field_cases data "stored_at" (validate_datetime P) None) as [[H3 [e3 ->]]|[H3 [a3 ->]]],
    (field_cases data "salience" (validate_float P) (Some float_one))
      as [[H4 [e4 ->]]|[H4 [a4 ->]]],
    (field_cases data "meta" validate_dict_str_any (Some [])) as [[H5 [e5 ->]]|[H5 [a5 ->]]];
    simpl; first [tauto | (eexists; split; [|reflexivity]; discriminate)].
Qed.

(** X12. [None] is no substitute for leaving an argument out of [Anchor]:
    given for any field, required or not, it makes the construction fail.
    For [reason] and [detail] of [IndexedAnchorResponse] it is one: the
    outcome is the same as without the argument. *)
Theorem explicit_None (P : Parsers) (data : gmap string pyval) (name : string) :
  (name ∈ Anchor.model_fields → data !! name = Some VNone →
   fails_validation (Anchor.new P data))
  ∧ (name ∈ ["reason"; "detail"] →
     IndexedAnchorResponse.new (<[name := VNone]> data)
     = IndexedAnchorResponse.new (delete name data)).
Proof.
  split.
  - unfold Anchor.model_fields. intros Hn Hnone.
    apply Anchor_new_invalid. unfold Anchor_invalid, invalid.
    repeat (apply elem_of_cons in Hn as [->|Hn]; [rewrite Hnone; simpl; tauto|]).
    by apply elem_of_nil in Hn.
  - intros Hn. unfold IndexedAnchorResponse.new, field.
    repeat (apply elem_of_cons in Hn as [->|Hn]);
      [| |by apply elem_of_nil in Hn];
      rewrite lookup_insert_eq, lookup_delete_eq, !lookup_insert_ne, !lookup_delete_ne by done;
      reflexivity.
Qed.

Lemma explicit_None_witness :
  fails_validation
    (Anchor.new no_parser (<["salience" := VNone]> (basic_anchor_data aware_2024)))
  ∧ IndexedAnchorResponse.new (<["reason" := VNone]> int_ok_data)
    = IndexedAnchorResponse.new (delete "reason" int_ok_data).
Proof.
  split.
  - apply (proj1 (explicit_None no_parser
                    (<["salience" := VNone]> (basic_anchor_data aware_2024)) "salience")).
    + apply (bool_decide_unpack _). reflexivity.
    + reflexivity.
  - apply (proj2 (explicit_None no_parser int_ok_data "reason")).
    apply (bool_decide_unpack _). reflexivity.
Defined.

(** ** Further properties of get_embedding *)

(** X13. Measuring the result of [get_embedding] fails: for every text and in
    every state, [len(get_embedding(text))] raises a [TypeError], and the
    state is left as it was. *)
Theorem embedding_dimension_raises (w : world) (text : string) :
  embedding_dimension text w
  = (Raise (Exception "TypeError" "object of type 'NoneType' has no len()"), w).
Proof. reflexivity. Qed.

(** ** The parsers and the concrete runs *)

(** The outcome of [Anchor] does not depend on the parsers of lax mode when
    [stored_at] is not a text or a number and [salience] is not a text: the
    runs above, made with [no_parser], are runs of every instance. *)
Lemma Anchor_new_parser_independent (P P' : Parsers) (data : gmap string pyval) :
  match data !! "stored_at" with
  | Some (VStr _ | VInt _ | VFloat _) => False
  | _ => True
  end →
  match data !! "salience" with
  | Some (VStr _) => False
  | _ => True
  end →
  Anchor.new P data = Anchor.new P' data.
Proof.
  intros Hd Hs. unfold Anchor.new, field.
  destruct (data !! "stored_at") as [[]|], (data !! "salience") as [[]|];
    simpl in *; try done.
Qed.
